(** * Global_Scripts/audit_python_project.py

    A shallow embedding of the project auditor: a command-line script that
    checks one directory argument, then shells out to [pip-audit] and
    [flake8] and prints what they answered.

    The script is effectful glue, so the embedding is a small monad:
    - the operating system (file system, installed packages) is an abstract
      state [OS], read by [os.path.exists] / [os.path.isdir] through [os_stat]
      and changed by every shell command through [os_shell];
    - what the script does to the outside is a log of [event]s, one per
      [print] call and one per command handed to the shell;
    - Python exceptions are a [result]: [Return] or [Raise].

    The script is embedded twice.  In [Section Auditor] the shell answers in
    text: every process was started and its captured output is a [str], so
    [subprocess.run(..., shell=True, check=True)] yields a return code with
    the two captured texts and raises [CalledProcessError] exactly when the
    code is not 0.  In [Module Raw] the shell answers in bytes, or not at
    all: [subprocess.run] raises [OSError] when the shell cannot be started
    and [UnicodeDecodeError] when the captured bytes do not decode.  Where
    every process is readable the two agree.

    [main] is modelled from the point where [argparse] has produced
    [args.project_path].  A Python [str] is a [string] whose characters are
    read as code points below 256; paths are joined as [posixpath.join]
    does, that is, [os.path.join] on POSIX. *)

From Stdlib Require Import String Ascii List ZArith NArith Bool Lia.
From Stdlib.Strings Require Import Byte.
Import ListNotations.
Open Scope string_scope.

(** ** Python strings *)

Module PyStr.

(** The newline character, written [\n] in the source. *)
Definition LF : string := String (ascii_of_nat 10) "".

(** [str.isspace] on one code point below 256: TAB..CR, FS..US, space,
    NEL (0x85) and NBSP (0xa0). *)
Definition isspace (c : ascii) : bool :=
  let n := N_of_ascii c in
  (((9 <=? n) && (n <=? 13)) || ((28 <=? n) && (n <=? 32))
   || (n =? 133) || (n =? 160))%N.

Fixpoint lstrip (s : string) : string :=
  match s with
  | EmptyString => EmptyString
  | String c s' => if isspace c then lstrip s' else s
  end.

Fixpoint rstrip (s : string) : string :=
  match s with
  | EmptyString => EmptyString
  | String c s' =>
      match rstrip s' with
      | EmptyString => if isspace c then EmptyString else String c EmptyString
      | r => String c r
      end
  end.

(** [s.strip()] with no argument. *)
Definition strip (s : string) : string := rstrip (lstrip s).

(** Truth value of a [str] in a condition: non-empty. *)
Definition truthy (s : string) : bool :=
  match s with EmptyString => false | String _ _ => true end.

(** Iterating over a [str] yields its characters as one-character strings. *)
Fixpoint iter (s : string) : list string :=
  match s with
  | EmptyString => []
  | String c s' => String c EmptyString :: iter s'
  end.

(** [sep.join(parts)]. *)
Fixpoint join (sep : string) (parts : list string) : string :=
  match parts with
  | [] => EmptyString
  | [x] => x
  | x :: rest => x ++ sep ++ join sep rest
  end.

Definition startswith (pre s : string) : bool := String.prefix pre s.

Fixpoint endswith (suf s : string) : bool :=
  (s =? suf) ||
  match s with
  | EmptyString => false
  | String _ s' => endswith suf s'
  end.

(** [needle in s]: [needle] occurs in [s] as a contiguous block. *)
Definition contains (needle s : string) : Prop :=
  exists pre post, s = pre ++ needle ++ post.


End PyStr.

(** ** [os.path] *)

Module OsPath.

(** [posixpath.join(a, b)] for two components: [os.path.join] on POSIX.
    (On Windows [os.path.join] is [ntpath.join], which is not modelled.) *)
Definition join (a b : string) : string :=
  if PyStr.startswith "/" b then b
  else if (a =? "") || PyStr.endswith "/" a then a ++ b
  else a ++ "/" ++ b.

End OsPath.

(** ** The outside world *)

(** What [os.stat] can tell about a path that exists. *)
Inductive FileKind : Type :=
| RegularFile
| Directory
| SpecialFile.

(** The fields of [subprocess.CompletedProcess] the script reads, with
    [capture_output=True, text=True]. *)
Record CompletedProcess : Type := mkCompleted {
  returncode : Z;
  stdout : string;
  stderr : string
}.

(** The two things the outside can observe besides the exit status. *)
Inductive event : Type :=
| Print (line : string)        (* print(line) *)
| Run (command : string).      (* subprocess.run(command, shell=True) *)

(** The exceptions that occur in the script: the two it names, and the two
    that [subprocess.run] raises besides, when the shell cannot be started
    and when the captured output cannot be decoded as text. *)
Inductive exn : Type :=
| CalledProcessError (code : Z) (cmd : string) (output : string) (err : string)
| SystemExit (code : Z)
| OSError
| UnicodeDecodeError.

Inductive result (A : Type) : Type :=
| Return (a : A)
| Raise (e : exn).
Arguments Return {A} a.
Arguments Raise {A} e.

(** The commands a log hands to the shell, in order. *)
Fixpoint commands (log : list event) : list string :=
  match log with
  | [] => []
  | Run c :: rest => c :: commands rest
  | Print _ :: rest => commands rest
  end.

(** The arguments of the [print] calls of a log, in order. *)
Fixpoint printed (log : list event) : list string :=
  match log with
  | [] => []
  | Print l :: rest => l :: printed rest
  | Run _ :: rest => printed rest
  end.

(** The text a log leaves on standard output: [print] ends each with [\n]. *)
Fixpoint stdout_text (log : list event) : string :=
  match log with
  | [] => ""
  | Print l :: rest => l ++ PyStr.LF ++ stdout_text rest
  | Run _ :: rest => stdout_text rest
  end.

(** The exit status the interpreter reports for what the script's top level
    did: 0 after a normal return, the code of [sys.exit], 1 after any other
    uncaught exception. *)
Definition exit_status {A : Type} (r : result A) : Z :=
  match r with
  | Return _ => 0
  | Raise (SystemExit code) => code
  | Raise (CalledProcessError _ _ _ _) => 1
  | Raise OSError => 1
  | Raise UnicodeDecodeError => 1
  end.

(** ** A concrete operating system

    A small executable instance of the outside world, used to run the script
    on concrete inputs: the file system is a table from paths to kinds and
    the shell looks the command line up in a table of answers. *)

Module Demo.

Definition OS : Type := list (string * FileKind).

Fixpoint stat (fs : OS) (path : string) : option FileKind :=
  match fs with
  | [] => None
  | (q, k) :: rest => if (q =? path) then Some k else stat rest path
  end.

Definition script : Type := list (string * CompletedProcess).

(** What [/bin/sh] answers for a command it cannot find. *)
Definition not_found : CompletedProcess :=
  mkCompleted 127 "" "sh: command not found".

Fixpoint answer (sc : script) (command : string) : CompletedProcess :=
  match sc with
  | [] => not_found
  | (c, p) :: rest => if (c =? command) then p else answer rest command
  end.

(** A shell that answers from [sc] and leaves the file system alone. *)
Definition shell (sc : script) (command : string) (fs : OS)
  : CompletedProcess * OS :=
  (answer sc command, fs).


Definition python : string := "python3".

Definition ok (out : string) : CompletedProcess := mkCompleted 0 out "".

Definition failed (code : Z) (out err : string) : CompletedProcess :=
  mkCompleted code out err.

(** File systems. *)
Definition project_with_pyproject : OS :=
  [("proj", Directory); ("proj/pyproject.toml", RegularFile);
   ("proj/requirements.txt", RegularFile)].

Definition project_with_requirements : OS :=
  [("proj", Directory); ("proj/requirements.txt", RegularFile)].

Definition bare_project : OS := [("proj", Directory)].

Definition project_with_src : OS :=
  [("proj", Directory); ("proj/src", Directory)].

(** [pyproject.toml] is a directory and [src] a regular file. *)
Definition odd_project : OS :=
  [("proj", Directory); ("proj/pyproject.toml", Directory);
   ("proj/src", RegularFile)].

(** [requirements.txt] is a directory. *)
Definition odd_requirements : OS :=
  [("proj", Directory); ("proj/requirements.txt", Directory)].

Definition plain_file : OS := [("notes.txt", RegularFile)].

(** Shell scripts.  With the empty script every command fails with 127. *)
Definition nothing_installed : script := [].

Definition clean_scans : script :=
  [("cd proj && python3 -m pip-audit", ok "No known vulnerabilities found");
   ("python3 -m pip-audit -r proj/requirements.txt",
    ok "No known vulnerabilities found")].

Definition quiet_checker : script := [("flake8 proj/src", ok "")].


Definition chatty_checker : script :=
  [("flake8 proj/src", ok "proj/src/a.py:1:1: W391 blank line at end of file")].

(** The checker exits with 1 and writes its findings to standard output. *)
Definition failing_checker : script :=
  [("flake8 proj/src", failed 1 "proj/src/a.py:1:1: E302" "")].

(** The checker exits with 2 and writes nothing. *)
Definition crashing_checker : script := [("flake8 proj/src", failed 2 "" "")].




End Demo.

(** ** The script *)

Section Auditor.

(** The state of the operating system, and how the script touches it. *)
Variable OS : Type.
Variable os_stat : OS -> string -> option FileKind.
Variable os_shell : string -> OS -> CompletedProcess * OS.
Variable sys_executable : string.

Record outcome (A : Type) : Type := mkOutcome {
  res : result A;
  os_after : OS;
  events : list event
}.
Arguments mkOutcome {A} res os_after events.
Arguments res {A} o.
Arguments os_after {A} o.
Arguments events {A} o.

Definition M (A : Type) : Type := OS -> outcome A.

Definition ret {A : Type} (a : A) : M A :=
  fun os => mkOutcome (Return a) os [].

Definition raise {A : Type} (e : exn) : M A :=
  fun os => mkOutcome (Raise e) os [].

Definition bind {A B : Type} (m : M A) (k : A -> M B) : M B :=
  fun os =>
    let o := m os in
    match res o with
    | Return a =>
        let o' := k a (os_after o) in
        mkOutcome (res o') (os_after o') (events o ++ events o')%list
    | Raise e => mkOutcome (Raise e) (os_after o) (events o)
    end.

(** [try: body except <handled>: handler]: [handler e] is [None] for an
    exception the [except] clause does not name, which then propagates. *)
Definition try_except {A : Type} (body : M A)
    (handler : exn -> option (M A)) : M A :=
  fun os =>
    let o := body os in
    match res o with
    | Return _ => o
    | Raise e =>
        match handler e with
        | Some h =>
            let o' := h (os_after o) in
            mkOutcome (res o') (os_after o') (events o ++ events o')%list
        | None => o
        end
    end.

Notation "x <- m ;; k" := (bind m (fun x => k))
  (at level 100, m at next level, right associativity).
Notation "m ;; k" := (bind m (fun _ => k))
  (at level 100, right associativity).

Definition print (line : string) : M unit :=
  fun os => mkOutcome (Return tt) os [Print line].

Definition sys_exit {A : Type} (code : Z) : M A := raise (SystemExit code).

(** [os.path.exists]: the path can be stat'ed, whatever it is. *)
Definition path_exists (os : OS) (path : string) : bool :=
  match os_stat os path with Some _ => true | None => false end.

(** [os.path.isdir]: the path can be stat'ed and is a directory. *)
Definition path_isdir (os : OS) (path : string) : bool :=
  match os_stat os path with Some Directory => true | _ => false end.

Definition os_path_exists (path : string) : M bool :=
  fun os => mkOutcome (Return (path_exists os path)) os [].

Definition os_path_isdir (path : string) : M bool :=
  fun os => mkOutcome (Return (path_isdir os path)) os [].

(** [subprocess.run(command, capture_output=True, text=True, check=True,
    shell=True)]. *)
Definition subprocess_run (command : string) : M CompletedProcess :=
  fun os =>
    let (p, os') := os_shell command os in
    mkOutcome
      (if (returncode p =? 0)%Z then Return p
       else Raise (CalledProcessError (returncode p) command
                     (stdout p) (stderr p)))
      os' [Run command].

(** The f-string of the [except] branch:
    [f"Error running command '{' '.join(command)}': {e.stderr}"]. *)
Definition error_message (command e_stderr : string) : string :=
  "Error running command '" ++ PyStr.join " " (PyStr.iter command)
  ++ "': " ++ e_stderr.

Definition run_command (command : string) : M string :=
  try_except
    (result <- subprocess_run command ;;
     ret (stdout result))
    (fun e =>
       match e with
       | CalledProcessError _ _ _ e_stderr =>
           Some (ret (error_message command e_stderr))
       | SystemExit _ => None
       | OSError => None
       | UnicodeDecodeError => None
       end).

Definition check_dependencies (project_path : string) : M unit :=
  print (PyStr.LF ++ "--- Checking for vulnerable dependencies ---") ;;
  run_command (sys_executable ++ " -m pip install pip-audit") ;;
  let pyproject_path := OsPath.join project_path "pyproject.toml" in
  let requirements_path := OsPath.join project_path "requirements.txt" in
  has_pyproject <- os_path_exists pyproject_path ;;
  if has_pyproject then
    print ("Auditing dependencies from " ++ pyproject_path ++ "...") ;;
    audit_result <- run_command ("cd " ++ project_path ++ " && "
                                 ++ sys_executable ++ " -m pip-audit") ;;
    print audit_result
  else
    has_requirements <- os_path_exists requirements_path ;;
    if has_requirements then
      print ("Auditing " ++ requirements_path ++ "...") ;;
      audit_result <- run_command (sys_executable ++ " -m pip-audit -r "
                                   ++ requirements_path) ;;
      print audit_result
    else
      print "No pyproject.toml or requirements.txt found.".

Definition check_code_quality (project_path : string) : M unit :=
  print (PyStr.LF ++ "--- Checking code quality with flake8 ---") ;;
  run_command (sys_executable ++ " -m pip install flake8") ;;
  let src_path := OsPath.join project_path "src" in
  has_src <- os_path_exists src_path ;;
  if has_src then
    quality_result <- run_command ("flake8 " ++ src_path) ;;
    if PyStr.truthy (PyStr.strip quality_result) then
      print quality_result
    else
      print "flake8 found no issues."
  else
    print "No src/ directory found to analyze.".

(** [main], from the parsed [args.project_path] on. *)
Definition main (project_path : string) : M unit :=
  is_dir <- os_path_isdir project_path ;;
  (if negb is_dir then
     print ("Error: Project path '" ++ project_path ++ "' not found.") ;;
     sys_exit 1
   else ret tt) ;;
  print ("--- Starting Audit for: " ++ project_path ++ " ---") ;;
  check_dependencies project_path ;;
  check_code_quality project_path ;;
  print (PyStr.LF ++ "--- Audit Complete ---").

(** ** Vocabulary of the statements *)

(** What the shell answers to [command] in state [os], and the state it
    leaves. *)
Definition shell_result (command : string) (os : OS) : CompletedProcess :=
  fst (os_shell command os).

Definition shell_state (command : string) (os : OS) : OS :=
  snd (os_shell command os).

(** The text [run_command] hands back for a finished process. *)
Definition returned_text (command : string) (p : CompletedProcess) : string :=
  if (returncode p =? 0)%Z then stdout p
  else error_message command (stderr p).

(** The command lines the two audits build. *)
Definition pip_install_pip_audit : string :=
  sys_executable ++ " -m pip install pip-audit".

Definition pip_install_flake8 : string :=
  sys_executable ++ " -m pip install flake8".

Definition scan_project (project_path : string) : string :=
  "cd " ++ project_path ++ " && " ++ sys_executable ++ " -m pip-audit".

Definition scan_requirements (requirements_path : string) : string :=
  sys_executable ++ " -m pip-audit -r " ++ requirements_path.

Definition run_checker (src_path : string) : string :=
  "flake8 " ++ src_path.

(** The fixed lines the script prints. *)
Definition dependencies_banner : string :=
  PyStr.LF ++ "--- Checking for vulnerable dependencies ---".

Definition quality_banner : string :=
  PyStr.LF ++ "--- Checking code quality with flake8 ---".

Definition start_banner (project_path : string) : string :=
  "--- Starting Audit for: " ++ project_path ++ " ---".

Definition complete_banner : string :=
  PyStr.LF ++ "--- Audit Complete ---".

Definition not_a_directory_message (project_path : string) : string :=
  "Error: Project path '" ++ project_path ++ "' not found.".

(** ** Facts about the string operations *)





Lemma join_iter_cons (c d : ascii) (s : string) :
  PyStr.join " " (PyStr.iter (String c (String d s))) =
  String c (String " " (PyStr.join " " (PyStr.iter (String d s)))).
Proof. reflexivity. Qed.

(** [' '.join(s)] on a [str]: the characters of [s] at the even positions,
    a space at every odd position between two of them. *)
Lemma join_iter_length (s : string) :
  String.length (PyStr.join " " (PyStr.iter s)) = 2 * String.length s - 1.
Proof.
  induction s as [|c [|d s] IH]; [reflexivity | reflexivity |].
  rewrite join_iter_cons.
  cbn [String.length] in *. rewrite IH. lia.
Qed.

Lemma join_iter_even (s : string) (i : nat) :
  String.get (2 * i) (PyStr.join " " (PyStr.iter s)) = String.get i s.
Proof.
  revert i. induction s as [|c [|d s] IH]; intros i.
  - reflexivity.
  - destruct i as [|i]; [reflexivity|].
    replace (2 * S i) with (S (S (2 * i))) by lia. reflexivity.
  - rewrite join_iter_cons. destruct i as [|i]; [reflexivity|].
    replace (2 * S i) with (S (S (2 * i))) by lia.
    cbn [String.get]. apply IH.
Qed.

Lemma join_iter_odd (s : string) (i : nat) :
  S i < String.length s ->
  String.get (2 * i + 1) (PyStr.join " " (PyStr.iter s)) = Some " "%char.
Proof.
  revert i. induction s as [|c [|d s] IH]; intros i Hi.
  - cbn in Hi. lia.
  - cbn in Hi. lia.
  - rewrite join_iter_cons. destruct i as [|i]; [reflexivity|].
    replace (2 * S i + 1) with (S (S (2 * i + 1))) by lia.
    cbn [String.get]. apply IH. cbn [String.length] in *. lia.
Qed.

Lemma contains_middle (pre needle post : string) :
  PyStr.contains needle (pre ++ needle ++ post).
Proof. exists pre, post. reflexivity. Qed.

Lemma contains_suffix (pre needle : string) :
  PyStr.contains needle (pre ++ needle).
Proof.
  exists pre, "". f_equal. clear.
  induction needle as [|c n IH]; cbn; [reflexivity | now rewrite <- IH].
Qed.

Lemma append_assoc (a b c : string) : (a ++ b) ++ c = a ++ (b ++ c).
Proof. induction a as [|x a IH]; cbn; [reflexivity | now rewrite IH]. Qed.

Lemma length_append (a b : string) :
  String.length (a ++ b) = String.length a + String.length b.
Proof. induction a as [|x a IH]; cbn; [reflexivity | now rewrite IH]. Qed.

(** A suffix test only looks at the end: a long enough tail decides it. *)
Lemma endswith_append (suf a b : string) :
  String.length suf <= String.length b ->
  PyStr.endswith suf (a ++ b) = PyStr.endswith suf b.
Proof.
  intros Hlen. induction a as [|x a IH]; [reflexivity|].
  cbn [String.append PyStr.endswith]. rewrite IH.
  replace (String x (a ++ b) =? suf) with false; [reflexivity|].
  symmetry. apply String.eqb_neq. intros E.
  apply (f_equal String.length) in E. cbn in E.
  rewrite length_append in E. lia.
Qed.

Lemma differ_by_suffix (suf a b : string) :
  PyStr.endswith suf a = true -> PyStr.endswith suf b = false -> a <> b.
Proof. intros Ha Hb E. rewrite E in Ha. congruence. Qed.

(** Joining onto a relative name appends it, with or without a slash. *)
Lemma join_relative (a b : string) :
  PyStr.startswith "/" b = false ->
  OsPath.join a b = a ++ b \/ OsPath.join a b = (a ++ "/") ++ b.
Proof.
  intros Hb. unfold OsPath.join. rewrite Hb.
  destruct ((a =? "") || PyStr.endswith "/" a); [left | right].
  - reflexivity.
  - now rewrite append_assoc.
Qed.

Lemma endswith_join (suf a b : string) :
  PyStr.startswith "/" b = false ->
  String.length suf <= String.length b ->
  PyStr.endswith suf (OsPath.join a b) = PyStr.endswith suf b.
Proof.
  intros Hb Hlen.
  destruct (join_relative a b Hb) as [-> | ->]; now apply endswith_append.
Qed.

(** ** Symbolic execution of the four functions *)

Lemma run_command_outcome (command : string) (os : OS) :
  run_command command os =
  mkOutcome (Return (returned_text command (shell_result command os)))
            (shell_state command os) [Run command].
Proof.
  unfold run_command, try_except, bind, subprocess_run, ret,
    returned_text, shell_result, shell_state.
  destruct (os_shell command os) as [p os']; cbn.
  destruct (returncode p =? 0)%Z; reflexivity.
Qed.

Lemma check_dependencies_outcome (project_path : string) (os : OS) :
  check_dependencies project_path os =
  let os1 := shell_state pip_install_pip_audit os in
  let pyproject_path := OsPath.join project_path "pyproject.toml" in
  let requirements_path := OsPath.join project_path "requirements.txt" in
  if path_exists os1 pyproject_path then
    mkOutcome (Return tt) (shell_state (scan_project project_path) os1)
      [Print dependencies_banner; Run pip_install_pip_audit;
       Print ("Auditing dependencies from " ++ pyproject_path ++ "...");
       Run (scan_project project_path);
       Print (returned_text (scan_project project_path)
                (shell_result (scan_project project_path) os1))]
  else if path_exists os1 requirements_path then
    mkOutcome (Return tt) (shell_state (scan_requirements requirements_path) os1)
      [Print dependencies_banner; Run pip_install_pip_audit;
       Print ("Auditing " ++ requirements_path ++ "...");
       Run (scan_requirements requirements_path);
       Print (returned_text (scan_requirements requirements_path)
                (shell_result (scan_requirements requirements_path) os1))]
  else
    mkOutcome (Return tt) os1
      [Print dependencies_banner; Run pip_install_pip_audit;
       Print "No pyproject.toml or requirements.txt found."].
Proof.
  unfold check_dependencies, bind, print, os_path_exists.
  cbn -[String.append OsPath.join].
  rewrite run_command_outcome.
  cbn -[String.append OsPath.join].
  fold pip_install_pip_audit.
  destruct (path_exists _ (OsPath.join project_path "pyproject.toml")).
  - cbn -[String.append OsPath.join].
    rewrite run_command_outcome. reflexivity.
  - cbn -[String.append OsPath.join].
    destruct (path_exists _ (OsPath.join project_path "requirements.txt")).
    + cbn -[String.append OsPath.join].
      rewrite run_command_outcome. reflexivity.
    + reflexivity.
Qed.

Lemma check_code_quality_outcome (project_path : string) (os : OS) :
  check_code_quality project_path os =
  let os1 := shell_state pip_install_flake8 os in
  let src_path := OsPath.join project_path "src" in
  if path_exists os1 src_path then
    let quality_result :=
      returned_text (run_checker src_path)
        (shell_result (run_checker src_path) os1) in
    mkOutcome (Return tt) (shell_state (run_checker src_path) os1)
      [Print quality_banner; Run pip_install_flake8;
       Run (run_checker src_path);
       Print (if PyStr.truthy (PyStr.strip quality_result)
              then quality_result else "flake8 found no issues.")]
  else
    mkOutcome (Return tt) os1
      [Print quality_banner; Run pip_install_flake8;
       Print "No src/ directory found to analyze."].
Proof.
  unfold check_code_quality, bind, print, os_path_exists.
  cbn -[String.append OsPath.join PyStr.strip].
  rewrite run_command_outcome.
  cbn -[String.append OsPath.join PyStr.strip].
  fold pip_install_flake8.
  destruct (path_exists _ (OsPath.join project_path "src")).
  - cbn -[String.append OsPath.join PyStr.strip].
    rewrite run_command_outcome.
    cbn -[String.append OsPath.join PyStr.strip].
    fold (run_checker (OsPath.join project_path "src")).
    destruct (PyStr.truthy _); reflexivity.
  - reflexivity.
Qed.

Lemma check_dependencies_returns (project_path : string) (os : OS) :
  res (check_dependencies project_path os) = Return tt.
Proof.
  rewrite check_dependencies_outcome. cbv zeta.
  repeat match goal with |- context [if ?b then _ else _] => destruct b end;
    reflexivity.
Qed.

Lemma check_code_quality_returns (project_path : string) (os : OS) :
  res (check_code_quality project_path os) = Return tt.
Proof.
  rewrite check_code_quality_outcome. cbv zeta.
  destruct (path_exists _ _); reflexivity.
Qed.

Lemma main_outcome (project_path : string) (os : OS) :
  main project_path os =
  if path_isdir os project_path then
    let deps := check_dependencies project_path os in
    let quality := check_code_quality project_path (os_after deps) in
    mkOutcome (Return tt) (os_after quality)
      ([Print (start_banner project_path)] ++ events deps
       ++ events quality ++ [Print complete_banner])%list
  else
    mkOutcome (Raise (SystemExit 1)) os
      [Print (not_a_directory_message project_path)].
Proof.
  unfold main, bind at 1, os_path_isdir.
  cbn -[String.append check_dependencies check_code_quality].
  destruct (path_isdir os project_path).
  - unfold bind, print, ret.
    cbn -[String.append check_dependencies check_code_quality].
    rewrite check_dependencies_returns.
    cbn -[String.append check_dependencies check_code_quality].
    rewrite check_code_quality_returns.
    reflexivity.
  - reflexivity.
Qed.

(** ** The command lines are pairwise different

    The install commands end in the package name, the scans in
    [-m pip-audit] or in [requirements.txt], the check in [src]. *)

Ltac by_suffix suf :=
  apply (differ_by_suffix suf);
  unfold scan_project, scan_requirements, run_checker,
    pip_install_pip_audit, pip_install_flake8;
  repeat match goal with
    | |- context [OsPath.join ?a ?b] =>
        let H := fresh in
        destruct (join_relative a b eq_refl) as [H | H]; rewrite H; clear H
    end;
  rewrite <- ?append_assoc;
  (rewrite endswith_append by (cbn; lia));
  reflexivity.

Lemma scan_project_not_install (project_path : string) :
  scan_project project_path <> pip_install_pip_audit /\
  scan_project project_path <> pip_install_flake8.
Proof. split; by_suffix "-m pip-audit". Qed.

Lemma scan_requirements_not_install (project_path : string) :
  let requirements_path := OsPath.join project_path "requirements.txt" in
  scan_requirements requirements_path <> pip_install_pip_audit /\
  scan_requirements requirements_path <> pip_install_flake8 /\
  scan_requirements requirements_path <> scan_project project_path.
Proof. cbv zeta. repeat split; by_suffix "xt". Qed.

Lemma run_checker_not_install (project_path : string) :
  let src_path := OsPath.join project_path "src" in
  run_checker src_path <> pip_install_pip_audit /\
  run_checker src_path <> pip_install_flake8.
Proof. cbv zeta. split; by_suffix "src". Qed.

(** ** The audited behaviour *)

(** C1.  The dependency audit picks its mode from the two manifests, probed
    after the install step, in this order.  If [pyproject.toml] exists it
    runs [pip-audit] from inside the project directory, prints what
    [run_command] returned for it, and runs nothing on [requirements.txt],
    whether or not that file exists.  Otherwise, if [requirements.txt]
    exists, it runs [pip-audit -r] on that path and prints what came back.
    Otherwise it prints that neither was found and runs no scan: the install
    command is the only command of the audit. *)
Theorem check_dependencies_selects_mode (project_path : string) (os : OS) :
  let os1 := shell_state pip_install_pip_audit os in
  let pyproject_path := OsPath.join project_path "pyproject.toml" in
  let requirements_path := OsPath.join project_path "requirements.txt" in
  let log := events (check_dependencies project_path os) in
  (path_exists os1 pyproject_path = true ->
   exists audit_result,
     res (run_command (scan_project project_path) os1) = Return audit_result
     /\ log = [Print dependencies_banner; Run pip_install_pip_audit;
               Print ("Auditing dependencies from " ++ pyproject_path ++ "...");
               Run ("cd " ++ project_path ++ " && " ++ sys_executable
                    ++ " -m pip-audit");
               Print audit_result]
     /\ commands log = [pip_install_pip_audit; scan_project project_path]
     /\ ~ In (scan_requirements requirements_path) (commands log))
  /\
  (path_exists os1 pyproject_path = false ->
   path_exists os1 requirements_path = true ->
   exists audit_result,
     res (run_command (scan_requirements requirements_path) os1)
       = Return audit_result
     /\ log = [Print dependencies_banner; Run pip_install_pip_audit;
               Print ("Auditing " ++ requirements_path ++ "...");
               Run (sys_executable ++ " -m pip-audit -r " ++ requirements_path);
               Print audit_result]
     /\ commands log = [pip_install_pip_audit;
                        scan_requirements requirements_path])
  /\
  (path_exists os1 pyproject_path = false ->
   path_exists os1 requirements_path = false ->
   log = [Print dependencies_banner; Run pip_install_pip_audit;
          Print "No pyproject.toml or requirements.txt found."]
   /\ commands log = [pip_install_pip_audit]
   /\ ~ In (scan_project project_path) (commands log)
   /\ ~ In (scan_requirements requirements_path) (commands log)).
Proof.
  intros os1 pyproject_path requirements_path log.
  subst log. rewrite check_dependencies_outcome. cbv zeta.
  fold os1 pyproject_path requirements_path.
  destruct (scan_project_not_install project_path) as [Hp1 _].
  destruct (scan_requirements_not_install project_path) as (Hr1 & _ & Hr2).
  fold requirements_path in Hr1, Hr2.
  split; [|split].
  - intros ->. eexists. rewrite run_command_outcome.
    split; [reflexivity|]. split; [reflexivity|]. split; [reflexivity|].
    cbn [events commands In]. intros [E | [E | []]]; congruence.
  - intros -> ->. eexists. rewrite run_command_outcome.
    split; [reflexivity|]. split; reflexivity.
  - intros -> ->.
    split; [reflexivity|]. split; [reflexivity|].
    split; cbn [events commands In]; intros [E | []]; congruence.
Qed.

(** C3.  For a path that is not a directory, [main] prints one line, the
    error message, which contains the path; it hands no command to the shell
    and prints neither audit's banner; it ends with [sys.exit(1)], so the
    exit status is 1. *)
Theorem main_rejects_non_directory (project_path : string) (os : OS) :
  path_isdir os project_path = false ->
  main project_path os =
    mkOutcome (Raise (SystemExit 1)) os
      [Print ("Error: Project path '" ++ project_path ++ "' not found.")]
  /\ exit_status (res (main project_path os)) = 1%Z
  /\ PyStr.contains project_path
       ("Error: Project path '" ++ project_path ++ "' not found.")
  /\ stdout_text (events (main project_path os)) =
       ("Error: Project path '" ++ project_path ++ "' not found.")
       ++ PyStr.LF
  /\ commands (events (main project_path os)) = []
  /\ ~ In dependencies_banner (printed (events (main project_path os)))
  /\ ~ In quality_banner (printed (events (main project_path os))).
Proof.
  intros Hdir. rewrite main_outcome, Hdir.
  split; [reflexivity|]. split; [reflexivity|].
  split; [apply contains_middle|].
  split; [reflexivity|]. split; [reflexivity|]. split.
  - cbn [events printed In]. unfold dependencies_banner.
    intros [E | []]. discriminate E.
  - cbn [events printed In]. unfold quality_banner.
    intros [E | []]. discriminate E.
Qed.


(** C6.  When [src] does not exist (probed after the install step), the
    quality audit prints its banner and the no-src line and returns; the
    install command is the only command it runs, and the checker command is
    not among the commands run. *)
Theorem code_quality_without_src (project_path : string) (os : OS) :
  let os1 := shell_state pip_install_flake8 os in
  let src_path := OsPath.join project_path "src" in
  let log := events (check_code_quality project_path os) in
  path_exists os1 src_path = false ->
  check_code_quality project_path os =
    mkOutcome (Return tt) os1
      [Print quality_banner; Run pip_install_flake8;
       Print "No src/ directory found to analyze."]
  /\ printed log = [quality_banner; "No src/ directory found to analyze."]
  /\ commands log = [pip_install_flake8]
  /\ ~ In (run_checker src_path) (commands log).
Proof.
  intros os1 src_path log Hsrc.
  subst log. rewrite check_code_quality_outcome. cbv zeta.
  fold os1 src_path. rewrite Hsrc.
  destruct (run_checker_not_install project_path) as [_ Hneq].
  fold src_path in Hneq.
  repeat split. cbn [events commands In]. intros [E | []]. congruence.
Qed.

(** C10.  The three probes ask only whether the path exists.  Whatever kind
    of file system entry [pyproject.toml] is (a directory too), the audit
    scans in project mode; with no [pyproject.toml], whatever kind
    [requirements.txt] is, it scans in requirements mode; and whatever kind
    [src] is (a regular file too), the checker is run on it. *)
Theorem probes_ignore_file_kind
    (project_path : string) (os : OS)
    (k_pyproject k_requirements k_src : FileKind) :
  let os1 := shell_state pip_install_pip_audit os in
  let os2 := shell_state pip_install_flake8 os in
  let pyproject_path := OsPath.join project_path "pyproject.toml" in
  let requirements_path := OsPath.join project_path "requirements.txt" in
  let src_path := OsPath.join project_path "src" in
  (os_stat os1 pyproject_path = Some k_pyproject ->
   commands (events (check_dependencies project_path os)) =
     [pip_install_pip_audit; scan_project project_path])
  /\
  (os_stat os1 pyproject_path = None ->
   os_stat os1 requirements_path = Some k_requirements ->
   commands (events (check_dependencies project_path os)) =
     [pip_install_pip_audit; scan_requirements requirements_path])
  /\
  (os_stat os2 src_path = Some k_src ->
   commands (events (check_code_quality project_path os)) =
     [pip_install_flake8; run_checker src_path]).
Proof.
  intros os1 os2 pyproject_path requirements_path src_path.
  rewrite check_dependencies_outcome, check_code_quality_outcome. cbv zeta.
  fold os1 os2 pyproject_path requirements_path src_path.
  unfold path_exists. repeat split.
  - intros ->. reflexivity.
  - intros -> ->. reflexivity.
  - intros ->. reflexivity.
Qed.

End Auditor.


Arguments mkOutcome {OS A} res os_after events.
Arguments res {OS A} o.
Arguments os_after {OS A} o.
Arguments events {OS A} o.
Arguments path_exists {OS} os_stat os path.
Arguments path_isdir {OS} os_stat os path.
Arguments shell_result {OS} os_shell command os.
Arguments shell_state {OS} os_shell command os.
Arguments run_command {OS} os_shell command os.
Arguments check_dependencies {OS} os_stat os_shell sys_executable project_path os.
Arguments check_code_quality {OS} os_stat os_shell sys_executable project_path os.
Arguments main {OS} os_stat os_shell sys_executable project_path os.

(** ** Two shells side by side

    What the script does with a command's answer shows when the same script
    runs against two shells that answer differently. *)

(** C9.  When the command exits with a code other than 0, [run_command]
    returns the error message: the fixed opening, then the command with one
    space between every two of its characters (its characters sit at the
    even positions, spaces at the odd ones), then the captured standard
    error.  The captured standard output is not part of it: against a second
    shell that also fails with the same standard error, whatever it wrote to
    standard output, [run_command] returns the same text. *)
Theorem failed_command_text
    (OS : Type) (sh sh' : string -> OS -> CompletedProcess * OS)
    (command : string) (os : OS) :
  let spaced := PyStr.join " " (PyStr.iter command) in
  returncode (fst (sh command os)) <> 0%Z ->
  run_command sh command os =
    mkOutcome
      (Return ("Error running command '" ++ spaced ++ "': "
               ++ stderr (fst (sh command os))))
      (snd (sh command os)) [Run command]
  /\ String.length spaced = 2 * String.length command - 1
  /\ (forall i, String.get (2 * i) spaced = String.get i command)
  /\ (forall i, S i < String.length command ->
                String.get (2 * i + 1) spaced = Some " "%char)
  /\ (returncode (fst (sh' command os)) <> 0%Z ->
      stderr (fst (sh' command os)) = stderr (fst (sh command os)) ->
      res (run_command sh' command os) = res (run_command sh command os)).
Proof.
  intros spaced Hfail. repeat split.
  - rewrite run_command_outcome. unfold returned_text, shell_result.
    apply Z.eqb_neq in Hfail. rewrite Hfail. reflexivity.
  - apply join_iter_length.
  - apply join_iter_even.
  - apply join_iter_odd.
  - intros Hfail' Herr. rewrite !run_command_outcome.
    unfold returned_text, shell_result.
    apply Z.eqb_neq in Hfail, Hfail'. rewrite Hfail, Hfail', Herr.
    reflexivity.
Qed.



(** ** The script on concrete inputs *)

(** The three modes of the dependency audit, one project each. *)
Lemma check_dependencies_selects_mode_witness :
  events (check_dependencies Demo.stat (Demo.shell Demo.clean_scans)
            Demo.python "proj" Demo.project_with_pyproject)
  = [Print dependencies_banner; Run "python3 -m pip install pip-audit";
     Print "Auditing dependencies from proj/pyproject.toml...";
     Run "cd proj && python3 -m pip-audit";
     Print "No known vulnerabilities found"]
  /\ commands (events (check_dependencies Demo.stat
                         (Demo.shell Demo.clean_scans)
                         Demo.python "proj" Demo.project_with_requirements))
     = ["python3 -m pip install pip-audit";
        "python3 -m pip-audit -r proj/requirements.txt"]
  /\ events (check_dependencies Demo.stat (Demo.shell Demo.clean_scans)
               Demo.python "proj" Demo.bare_project)
     = [Print dependencies_banner; Run "python3 -m pip install pip-audit";
        Print "No pyproject.toml or requirements.txt found."].
Proof.
  split; [|split].
  - destruct (proj1
      (check_dependencies_selects_mode Demo.OS Demo.stat
         (Demo.shell Demo.clean_scans) Demo.python "proj"
         Demo.project_with_pyproject) eq_refl)
      as (audit_result & Hres & Hlog & _).
    injection Hres as <-. exact Hlog.
  - destruct (proj1 (proj2
      (check_dependencies_selects_mode Demo.OS Demo.stat
         (Demo.shell Demo.clean_scans) Demo.python "proj"
         Demo.project_with_requirements)) eq_refl eq_refl)
      as (audit_result & _ & _ & Hcommands).
    exact Hcommands.
  - exact (proj1 (proj2 (proj2
      (check_dependencies_selects_mode Demo.OS Demo.stat
         (Demo.shell Demo.clean_scans) Demo.python "proj"
         Demo.bare_project)) eq_refl eq_refl)).
Defined.

(** [main] on a regular file. *)
Lemma main_rejects_non_directory_witness :
  path_isdir Demo.stat Demo.plain_file "notes.txt" = false
  /\ main Demo.stat (Demo.shell Demo.nothing_installed) Demo.python
       "notes.txt" Demo.plain_file
     = mkOutcome (Raise (SystemExit 1)) Demo.plain_file
         [Print "Error: Project path 'notes.txt' not found."].
Proof.
  split; [reflexivity|].
  exact (proj1 (main_rejects_non_directory Demo.OS Demo.stat
                  (Demo.shell Demo.nothing_installed) Demo.python
                  "notes.txt" Demo.plain_file eq_refl)).
Defined.



(** A checker that exits with 1: its findings on standard output are
    replaced by the error message, whose tail is the (empty) standard
    error. *)
Example failing_checker_findings_replaced :
  printed (events (check_code_quality Demo.stat
                     (Demo.shell Demo.failing_checker) Demo.python
                     "proj" Demo.project_with_src))
  = [quality_banner;
     "Error running command 'f l a k e 8   p r o j / s r c': "].
Proof. reflexivity. Qed.

(** The quality audit on a project without [src]. *)
Lemma code_quality_without_src_witness :
  path_exists Demo.stat Demo.bare_project "proj/src" = false
  /\ check_code_quality Demo.stat (Demo.shell Demo.quiet_checker)
       Demo.python "proj" Demo.bare_project
     = mkOutcome (Return tt) Demo.bare_project
         [Print quality_banner; Run "python3 -m pip install flake8";
          Print "No src/ directory found to analyze."].
Proof.
  split; [reflexivity|].
  exact (proj1 (code_quality_without_src Demo.OS Demo.stat
                  (Demo.shell Demo.quiet_checker) Demo.python "proj"
                  Demo.bare_project eq_refl)).
Defined.


(** Manifests that are directories and a [src] that is a regular file. *)
Lemma probes_ignore_file_kind_witness :
  Demo.stat Demo.odd_project "proj/pyproject.toml" = Some Directory
  /\ commands (events (check_dependencies Demo.stat
                         (Demo.shell Demo.clean_scans) Demo.python
                         "proj" Demo.odd_project))
     = ["python3 -m pip install pip-audit"; "cd proj && python3 -m pip-audit"]
  /\ Demo.stat Demo.odd_requirements "proj/requirements.txt" = Some Directory
  /\ commands (events (check_dependencies Demo.stat
                         (Demo.shell Demo.clean_scans) Demo.python
                         "proj" Demo.odd_requirements))
     = ["python3 -m pip install pip-audit";
        "python3 -m pip-audit -r proj/requirements.txt"]
  /\ Demo.stat Demo.odd_project "proj/src" = Some RegularFile
  /\ commands (events (check_code_quality Demo.stat
                         (Demo.shell Demo.quiet_checker) Demo.python
                         "proj" Demo.odd_project))
     = ["python3 -m pip install flake8"; "flake8 proj/src"].
Proof.
  split; [reflexivity | split; [| split; [reflexivity | split;
    [| split; [reflexivity |]]]]].
  - exact (proj1
      (probes_ignore_file_kind Demo.OS Demo.stat
         (Demo.shell Demo.clean_scans) Demo.python "proj" Demo.odd_project
         Directory Directory RegularFile) eq_refl).
  - exact (proj1 (proj2
      (probes_ignore_file_kind Demo.OS Demo.stat
         (Demo.shell Demo.clean_scans) Demo.python "proj"
         Demo.odd_requirements Directory Directory RegularFile))
      eq_refl eq_refl).
  - exact (proj2 (proj2
      (probes_ignore_file_kind Demo.OS Demo.stat
         (Demo.shell Demo.quiet_checker) Demo.python "proj" Demo.odd_project
         Directory Directory RegularFile)) eq_refl).
Defined.

(** A checker that fails with findings on standard output, and one that
    fails with none: the same returned text. *)
Lemma failed_command_text_witness :
  returncode (fst (Demo.shell Demo.failing_checker "flake8 proj/src"
                     Demo.project_with_src)) = 1%Z
  /\ res (run_command (Demo.shell Demo.failing_checker) "flake8 proj/src"
            Demo.project_with_src)
     = Return "Error running command 'f l a k e 8   p r o j / s r c': "
  /\ res (run_command (Demo.shell Demo.crashing_checker) "flake8 proj/src"
            Demo.project_with_src)
     = res (run_command (Demo.shell Demo.failing_checker) "flake8 proj/src"
              Demo.project_with_src).
Proof.
  assert (Hfail : returncode (fst (Demo.shell Demo.failing_checker
                                     "flake8 proj/src" Demo.project_with_src))
                  <> 0%Z) by discriminate.
  pose proof (failed_command_text Demo.OS
                (Demo.shell Demo.failing_checker)
                (Demo.shell Demo.crashing_checker)
                "flake8 proj/src" Demo.project_with_src Hfail)
    as (Htext & _ & _ & _ & Hsame).
  split; [reflexivity | split].
  - exact (f_equal res Htext).
  - apply Hsame; [discriminate | reflexivity].
Defined.


(** ** Further properties of the script *)

Section Further.

Variable OS : Type.
Variable os_stat : OS -> string -> option FileKind.
Variable os_shell : string -> OS -> CompletedProcess * OS.
Variable sys_executable : string.

Lemma commands_app (l1 l2 : list event) :
  commands (l1 ++ l2) = (commands l1 ++ commands l2)%list.
Proof.
  induction l1 as [|[line | command] l1 IH]; cbn; [reflexivity | exact IH |].
  now rewrite IH.
Qed.








End Further.



(** X6.  The text [run_command] returns does not tell a failure from a
    success: a command that exits with 0 and writes the error message to
    standard output returns the same text as one that fails with that
    standard error. *)
Theorem returned_text_hides_failure
    (OS : Type) (sh sh' : string -> OS -> CompletedProcess * OS)
    (command e_stderr : string) (os : OS) :
  returncode (fst (sh command os)) = 0%Z ->
  stdout (fst (sh command os))
    = "Error running command '" ++ PyStr.join " " (PyStr.iter command)
      ++ "': " ++ e_stderr ->
  returncode (fst (sh' command os)) <> 0%Z ->
  stderr (fst (sh' command os)) = e_stderr ->
  res (run_command sh command os) = res (run_command sh' command os).
Proof.
  intros Hok Hout Hfail Herr. rewrite !run_command_outcome.
  unfold returned_text, shell_result.
  apply Z.eqb_neq in Hfail. rewrite Hok, Hfail, Hout, Herr. reflexivity.
Qed.

Lemma string_get_ext (a b : string) :
  (forall i, String.get i a = String.get i b) -> a = b.
Proof.
  revert b. induction a as [|x a IH]; intros [|y b] H.
  - reflexivity.
  - specialize (H 0). discriminate H.
  - specialize (H 0). discriminate H.
  - pose proof (H 0) as H0. cbn in H0. injection H0 as ->.
    f_equal. apply IH. intros i. exact (H (S i)).
Qed.

(** X7.  The spaced rendering of the command in the error message loses
    nothing: two commands with the same rendering are the same command. *)
Theorem spaced_command_injective (command command' : string) :
  PyStr.join " " (PyStr.iter command) = PyStr.join " " (PyStr.iter command') ->
  command = command'.
Proof.
  intros E. apply string_get_ext. intros i.
  rewrite <- (join_iter_even command i), <- (join_iter_even command' i).
  now rewrite E.
Qed.

(** X8.  On POSIX, where [os.path.join] is [posixpath.join], a trailing
    slash on the project path changes nothing for the quality audit, and
    nothing for the manifests the dependency audit looks for: for a
    non-empty path that does not end in a slash, the three probed paths are
    the same with and without the slash, and so is the whole quality audit.
    (Under [ntpath.join] the joined strings differ; the statement is about
    [posixpath.join] only.) *)
Theorem trailing_slash_is_harmless_on_posix
    (OS : Type) (os_stat : OS -> string -> option FileKind)
    (os_shell : string -> OS -> CompletedProcess * OS)
    (sys_executable project_path : string) (os : OS) :
  project_path <> "" ->
  PyStr.endswith "/" project_path = false ->
  OsPath.join (project_path ++ "/") "pyproject.toml"
    = OsPath.join project_path "pyproject.toml"
  /\ OsPath.join (project_path ++ "/") "requirements.txt"
     = OsPath.join project_path "requirements.txt"
  /\ OsPath.join (project_path ++ "/") "src" = OsPath.join project_path "src"
  /\ check_code_quality os_stat os_shell sys_executable
       (project_path ++ "/") os
     = check_code_quality os_stat os_shell sys_executable project_path os.
Proof.
  intros Hne Hslash.
  assert (Hjoin : forall name,
             PyStr.startswith "/" name = false ->
             OsPath.join (project_path ++ "/") name
             = OsPath.join project_path name).
  { intros name Hname. unfold OsPath.join. rewrite Hname, Hslash.
    apply String.eqb_neq in Hne. rewrite Hne.
    rewrite (endswith_append "/" project_path "/") by (cbn; lia).
    rewrite orb_true_r. cbn [orb]. apply append_assoc. }
  split; [now apply Hjoin | split; [now apply Hjoin | split]].
  - now apply Hjoin.
  - unfold check_code_quality. rewrite (Hjoin "src" eq_refl). reflexivity.
Qed.

(** X9.  The script changes the operating system only through the commands
    it hands to the shell: the state [main] leaves is the state reached by
    running the logged commands, in the order of the log, from the initial
    state.  This holds for every path, directory or not. *)
Theorem main_state_is_replay_of_commands
    (OS : Type) (os_stat : OS -> string -> option FileKind)
    (os_shell : string -> OS -> CompletedProcess * OS)
    (sys_executable project_path : string) (os : OS) :
  os_after (main os_stat os_shell sys_executable project_path os)
  = fold_left (fun s c => snd (os_shell c s))
      (commands (events (main os_stat os_shell sys_executable
                           project_path os)))
      os.
Proof.
  assert (Hdeps : forall s,
    os_after (check_dependencies os_stat os_shell sys_executable
                project_path s)
    = fold_left (fun s c => snd (os_shell c s))
        (commands (events (check_dependencies os_stat os_shell
                             sys_executable project_path s))) s).
  { intros s. rewrite check_dependencies_outcome. cbv zeta.
    destruct (path_exists _ _ _); [| destruct (path_exists _ _ _)];
      reflexivity. }
  assert (Hquality : forall s,
    os_after (check_code_quality os_stat os_shell sys_executable
                project_path s)
    = fold_left (fun s c => snd (os_shell c s))
        (commands (events (check_code_quality os_stat os_shell
                             sys_executable project_path s))) s).
  { intros s. rewrite check_code_quality_outcome. cbv zeta.
    destruct (path_exists _ _ _); reflexivity. }
  rewrite main_outcome.
  destruct (path_isdir os_stat os project_path); [| reflexivity].
  cbv zeta. cbn [os_after events].
  rewrite !commands_app, !fold_left_app. cbn [commands fold_left].
  rewrite <- Hdeps, <- Hquality. reflexivity.
Qed.

(** ** Further scenarios *)

Module Scenario.



(** A command that exits with 0 and writes what looks like a failure. *)
Definition masquerade : Demo.script :=
  [("ls", Demo.ok "Error running command 'l s': sh: command not found")].


End Scenario.






(** A success that prints an error message, and the failure it imitates. *)
Lemma returned_text_hides_failure_witness :
  res (run_command (Demo.shell Scenario.masquerade) "ls" Demo.bare_project)
  = res (run_command (Demo.shell Demo.nothing_installed) "ls"
           Demo.bare_project).
Proof.
  refine (returned_text_hides_failure Demo.OS
            (Demo.shell Scenario.masquerade)
            (Demo.shell Demo.nothing_installed)
            "ls" "sh: command not found" Demo.bare_project
            eq_refl eq_refl _ eq_refl).
  discriminate.
Defined.

Lemma spaced_command_injective_witness :
  PyStr.join " " (PyStr.iter "ls") = "l s" /\ "ls" = "ls".
Proof.
  split; [reflexivity|].
  exact (spaced_command_injective "ls" "ls" eq_refl).
Defined.

(** [proj/] and [proj]. *)
Lemma trailing_slash_is_harmless_on_posix_witness :
  check_code_quality Demo.stat (Demo.shell Demo.chatty_checker) Demo.python
    "proj/" Demo.project_with_src
  = check_code_quality Demo.stat (Demo.shell Demo.chatty_checker) Demo.python
      "proj" Demo.project_with_src.
Proof.
  refine (proj2 (proj2 (proj2
            (trailing_slash_is_harmless_on_posix Demo.OS Demo.stat
               (Demo.shell Demo.chatty_checker) Demo.python
               "proj" Demo.project_with_src _ eq_refl)))).
  discriminate.
Defined.

(** ** Captured output as bytes

    What precedes runs the script against a shell that answers in text.
    [subprocess.run(..., text=True)] gets bytes from the process and decodes
    them; it raises [OSError] when the shell cannot be started and
    [UnicodeDecodeError] when the bytes are not text in the locale's
    encoding, both before it looks at the return code.  The [except] clause
    of [run_command] names [CalledProcessError] only.  The module below is
    the same script over such a shell. *)

Arguments ret {OS A} a _.
Arguments raise {OS A} e _.
Arguments bind {OS A B} m k _.
Arguments try_except {OS A} body handler _.
Arguments print {OS} line _.
Arguments sys_exit {OS A} code _.
Arguments os_path_exists {OS} os_stat path _.
Arguments os_path_isdir {OS} os_stat path _.

(** What [Popen] and [communicate] hand back before any decoding. *)
Inductive Spawned : Type :=
| Exited (code : Z) (out err : list byte)
| NotStarted.

Module Raw.

Section Script.

Variable OS : Type.
Variable os_stat : OS -> string -> option FileKind.
Variable os_spawn : string -> OS -> Spawned * OS.
(** Decoding in the locale's encoding, with universal newlines; [None] when
    the bytes are not valid in it. *)
Variable decode : list byte -> option string.
Variable sys_executable : string.

Notation "x <- m ;; k" := (bind m (fun x => k))
  (at level 100, m at next level, right associativity).
Notation "m ;; k" := (bind m (fun _ => k))
  (at level 100, right associativity).

(** [subprocess.run(command, capture_output=True, text=True, check=True,
    shell=True)]. *)
Definition subprocess_run (command : string) : M OS CompletedProcess :=
  fun os =>
    let (r, os') := os_spawn command os in
    mkOutcome
      match r with
      | NotStarted => Raise OSError
      | Exited code out err =>
          match decode out, decode err with
          | Some out_text, Some err_text =>
              if (code =? 0)%Z
              then Return (mkCompleted code out_text err_text)
              else Raise (CalledProcessError code command out_text err_text)
          | _, _ => Raise UnicodeDecodeError
          end
      end
      os' [Run command].

Definition run_command (command : string) : M OS string :=
  try_except
    (result <- subprocess_run command ;;
     ret (stdout result))
    (fun e =>
       match e with
       | CalledProcessError _ _ _ e_stderr =>
           Some (ret (error_message command e_stderr))
       | SystemExit _ => None
       | OSError => None
       | UnicodeDecodeError => None
       end).

Definition check_dependencies (project_path : string) : M OS unit :=
  print (PyStr.LF ++ "--- Checking for vulnerable dependencies ---") ;;
  run_command (sys_executable ++ " -m pip install pip-audit") ;;
  let pyproject_path := OsPath.join project_path "pyproject.toml" in
  let requirements_path := OsPath.join project_path "requirements.txt" in
  has_pyproject <- os_path_exists os_stat pyproject_path ;;
  if has_pyproject then
    print ("Auditing dependencies from " ++ pyproject_path ++ "...") ;;
    audit_result <- run_command ("cd " ++ project_path ++ " && "
                                 ++ sys_executable ++ " -m pip-audit") ;;
    print audit_result
  else
    has_requirements <- os_path_exists os_stat requirements_path ;;
    if has_requirements then
      print ("Auditing " ++ requirements_path ++ "...") ;;
      audit_result <- run_command (sys_executable ++ " -m pip-audit -r "
                                   ++ requirements_path) ;;
      print audit_result
    else
      print "No pyproject.toml or requirements.txt found.".

Definition check_code_quality (project_path : string) : M OS unit :=
  print (PyStr.LF ++ "--- Checking code quality with flake8 ---") ;;
  run_command (sys_executable ++ " -m pip install flake8") ;;
  let src_path := OsPath.join project_path "src" in
  has_src <- os_path_exists os_stat src_path ;;
  if has_src then
    quality_result <- run_command ("flake8 " ++ src_path) ;;
    if PyStr.truthy (PyStr.strip quality_result) then
      print quality_result
    else
      print "flake8 found no issues."
  else
    print "No src/ directory found to analyze.".

(** [main], from the parsed [args.project_path] on. *)
Definition main (project_path : string) : M OS unit :=
  is_dir <- os_path_isdir os_stat project_path ;;
  (if negb is_dir then
     print ("Error: Project path '" ++ project_path ++ "' not found.") ;;
     sys_exit 1
   else ret tt) ;;
  print ("--- Starting Audit for: " ++ project_path ++ " ---") ;;
  check_dependencies project_path ;;
  check_code_quality project_path ;;
  print (PyStr.LF ++ "--- Audit Complete ---").

(** The process was started and both captured outputs are text. *)
Definition readable (r : Spawned) : bool :=
  match r with
  | NotStarted => false
  | Exited _ out err =>
      match decode out, decode err with
      | Some _, Some _ => true
      | _, _ => false
      end
  end.

(** The text view of a started process; an output that does not decode is
    shown as empty. *)
Definition as_text (r : Spawned) : CompletedProcess :=
  match r with
  | NotStarted => mkCompleted 0 "" ""
  | Exited code out err =>
      mkCompleted code
        match decode out with Some t => t | None => "" end
        match decode err with Some t => t | None => "" end
  end.

(** The shell in text that [os_spawn] amounts to where it is readable. *)
Definition text_shell (command : string) (os : OS) : CompletedProcess * OS :=
  (as_text (fst (os_spawn command os)), snd (os_spawn command os)).

(** The five command lines the script can build for a project path. *)
Definition command_lines (project_path : string) : list string :=
  [pip_install_pip_audit sys_executable;
   scan_project sys_executable project_path;
   scan_requirements sys_executable
     (OsPath.join project_path "requirements.txt");
   pip_install_flake8 sys_executable;
   run_checker (OsPath.join project_path "src")].

End Script.

End Raw.

Arguments Raw.subprocess_run {OS} os_spawn decode command _.
Arguments Raw.run_command {OS} os_spawn decode command _.
Arguments Raw.check_dependencies {OS} os_stat os_spawn decode
  sys_executable project_path _.
Arguments Raw.check_code_quality {OS} os_stat os_spawn decode
  sys_executable project_path _.
Arguments Raw.main {OS} os_stat os_spawn decode sys_executable project_path _.
Arguments Raw.text_shell {OS} os_spawn decode command os.

(** A concrete decoder: the strict [ascii] codec with universal newlines.
    It refuses every byte from 0x80 on; the byte 0xff, used below, is not
    valid in UTF-8 either. *)
Module Codec.

Definition CR : ascii := ascii_of_nat 13.
Definition NL : ascii := ascii_of_nat 10.

(** [data.replace("\r\n", "\n").replace("\r", "\n")]. *)
Fixpoint translate_newlines (s : string) : string :=
  match s with
  | EmptyString => EmptyString
  | String c rest =>
      if (c =? CR)%char then
        match rest with
        | EmptyString => String NL EmptyString
        | String d rest' =>
            if (d =? NL)%char then String NL (translate_newlines rest')
            else String NL (translate_newlines rest)
        end
      else String c (translate_newlines rest)
  end.

Fixpoint ascii_strict (data : list byte) : option string :=
  match data with
  | [] => Some EmptyString
  | b :: rest =>
      if (Byte.to_N b <? 128)%N then
        match ascii_strict rest with
        | Some t => Some (String (ascii_of_byte b) t)
        | None => None
        end
      else None
  end.

Definition decode (data : list byte) : option string :=
  match ascii_strict data with
  | Some t => Some (translate_newlines t)
  | None => None
  end.

(** A shell that answers every command with the same result. *)
Definition constant_shell (r : Spawned) (command : string) (fs : Demo.OS)
  : Spawned * Demo.OS :=
  (r, fs).

(** Exit code 0, one byte 0xff on standard output. *)
Definition binary_output : Spawned := Exited 0 [Byte.xff] [].

(** Exit code 127 and a message in ASCII on standard error. *)
Definition missing_tool : Spawned :=
  Exited 127 [] (list_byte_of_string "sh: command not found").

End Codec.

(** ** The script over bytes: what is caught and what is not *)

Section RawFacts.

Variable OS : Type.
Variable os_stat : OS -> string -> option FileKind.
Variable os_spawn : string -> OS -> Spawned * OS.
Variable decode : list byte -> option string.
Variable sys_executable : string.

Lemma raw_run_command_outcome (command : string) (os : OS) :
  Raw.run_command os_spawn decode command os =
  mkOutcome
    match fst (os_spawn command os) with
    | NotStarted => Raise OSError
    | Exited code out err =>
        match decode out, decode err with
        | Some out_text, Some err_text =>
            Return (if (code =? 0)%Z then out_text
                    else error_message command err_text)
        | _, _ => Raise UnicodeDecodeError
        end
    end
    (snd (os_spawn command os)) [Run command].
Proof.
  unfold Raw.run_command, Raw.subprocess_run, try_except, bind, ret.
  destruct (os_spawn command os) as [[code out err |] os']; cbn;
    [| reflexivity].
  destruct (decode out) as [out_text |], (decode err) as [err_text |]; cbn;
    try reflexivity.
  destruct (code =? 0)%Z; reflexivity.
Qed.

(** Where the process is readable, [run_command] over bytes is
    [run_command] over the text view. *)
Lemma raw_run_command_readable (command : string) (os : OS) :
  Raw.readable decode (fst (os_spawn command os)) = true ->
  Raw.run_command os_spawn decode command os
  = run_command (Raw.text_shell os_spawn decode) command os.
Proof.
  intros Hreadable. rewrite raw_run_command_outcome, run_command_outcome.
  unfold Raw.text_shell, shell_result, shell_state, returned_text,
    Raw.as_text, Raw.readable in *.
  cbn [fst snd].
  destruct (fst (os_spawn command os)) as [code out err |];
    [| discriminate].
  destruct (decode out), (decode err); try discriminate. reflexivity.
Qed.

Lemma raw_check_dependencies_readable (project_path : string) (os : OS) :
  (forall c, In c (Raw.command_lines sys_executable project_path) ->
             forall s, Raw.readable decode (fst (os_spawn c s)) = true) ->
  Raw.check_dependencies os_stat os_spawn decode sys_executable
    project_path os
  = check_dependencies os_stat (Raw.text_shell os_spawn decode)
      sys_executable project_path os.
Proof.
  intros Hreadable.
  unfold Raw.check_dependencies, check_dependencies, bind, print,
    os_path_exists.
  cbn -[String.append OsPath.join].
  rewrite raw_run_command_readable
    by (apply Hreadable; cbn; auto).
  rewrite run_command_outcome. cbn -[String.append OsPath.join].
  destruct (path_exists _ _ (OsPath.join project_path "pyproject.toml")).
  - cbn -[String.append OsPath.join].
    rewrite raw_run_command_readable
      by (apply Hreadable; cbn; auto).
    reflexivity.
  - cbn -[String.append OsPath.join].
    destruct (path_exists _ _ (OsPath.join project_path "requirements.txt")).
    + cbn -[String.append OsPath.join].
      rewrite raw_run_command_readable
        by (apply Hreadable; cbn; auto).
      reflexivity.
    + reflexivity.
Qed.

Lemma raw_check_code_quality_readable (project_path : string) (os : OS) :
  (forall c, In c (Raw.command_lines sys_executable project_path) ->
             forall s, Raw.readable decode (fst (os_spawn c s)) = true) ->
  Raw.check_code_quality os_stat os_spawn decode sys_executable
    project_path os
  = check_code_quality os_stat (Raw.text_shell os_spawn decode)
      sys_executable project_path os.
Proof.
  intros Hreadable.
  unfold Raw.check_code_quality, check_code_quality, bind, print,
    os_path_exists.
  cbn -[String.append OsPath.join PyStr.strip].
  rewrite raw_run_command_readable
    by (apply Hreadable; cbn; auto 6).
  rewrite run_command_outcome. cbn -[String.append OsPath.join PyStr.strip].
  destruct (path_exists _ _ (OsPath.join project_path "src")).
  - cbn -[String.append OsPath.join PyStr.strip].
    rewrite raw_run_command_readable
      by (apply Hreadable; cbn; auto 6).
    reflexivity.
  - reflexivity.
Qed.

(** An audit ends by returning or by one of the two exceptions that
    [run_command] does not catch. *)
Definition returns_or_escapes (r : result unit) : Prop :=
  r = Return tt \/ r = Raise OSError \/ r = Raise UnicodeDecodeError.

Ltac run_one :=
  rewrite raw_run_command_outcome;
  match goal with
  | |- context [os_spawn ?c ?s] =>
      let out := fresh "out" in
      let err := fresh "err" in
      destruct (fst (os_spawn c s)) as [? out err |];
      [destruct (decode out), (decode err) |];
      cbn -[String.append OsPath.join PyStr.strip];
      try (unfold returns_or_escapes; tauto)
  end.

Lemma raw_check_dependencies_ends (project_path : string) (os : OS) :
  returns_or_escapes
    (res (Raw.check_dependencies os_stat os_spawn decode sys_executable
            project_path os)).
Proof.
  unfold Raw.check_dependencies, bind, print, os_path_exists.
  cbn -[String.append OsPath.join].
  run_one.
  destruct (path_exists _ _ _); cbn -[String.append OsPath.join].
  - run_one.
  - destruct (path_exists _ _ _); cbn -[String.append OsPath.join].
    + run_one.
    + unfold returns_or_escapes; tauto.
Qed.

Lemma raw_check_code_quality_ends (project_path : string) (os : OS) :
  returns_or_escapes
    (res (Raw.check_code_quality os_stat os_spawn decode sys_executable
            project_path os)).
Proof.
  unfold Raw.check_code_quality, bind, print, os_path_exists.
  cbn -[String.append OsPath.join PyStr.strip].
  run_one.
  destruct (path_exists _ _ _); cbn -[String.append OsPath.join PyStr.strip].
  - run_one. destruct (PyStr.truthy _); unfold returns_or_escapes; tauto.
  - unfold returns_or_escapes; tauto.
Qed.

Lemma raw_main_outcome (project_path : string) (os : OS) :
  Raw.main os_stat os_spawn decode sys_executable project_path os =
  if path_isdir os_stat os project_path then
    let deps :=
      Raw.check_dependencies os_stat os_spawn decode sys_executable
        project_path os in
    match res deps with
    | Raise e =>
        mkOutcome (Raise e) (os_after deps)
          ([Print (start_banner project_path)] ++ events deps)%list
    | Return _ =>
        let quality :=
          Raw.check_code_quality os_stat os_spawn decode sys_executable
            project_path (os_after deps) in
        match res quality with
        | Raise e =>
            mkOutcome (Raise e) (os_after quality)
              ([Print (start_banner project_path)] ++ events deps
               ++ events quality)%list
        | Return _ =>
            mkOutcome (Return tt) (os_after quality)
              ([Print (start_banner project_path)] ++ events deps
               ++ events quality ++ [Print complete_banner])%list
        end
    end
  else
    mkOutcome (Raise (SystemExit 1)) os
      [Print (not_a_directory_message project_path)].
Proof.
  unfold Raw.main, bind at 1, os_path_isdir.
  cbn -[String.append Raw.check_dependencies Raw.check_code_quality].
  destruct (path_isdir os_stat os project_path); [| reflexivity].
  unfold bind, print, ret.
  cbn -[String.append Raw.check_dependencies Raw.check_code_quality].
  destruct (res (Raw.check_dependencies _ _ _ _ _ _)); [| reflexivity].
  cbn -[String.append Raw.check_dependencies Raw.check_code_quality].
  destruct (res (Raw.check_code_quality _ _ _ _ _ _)) as [[] |];
    reflexivity.
Qed.

(** C2, as the code has it.  [run_command] catches [CalledProcessError]
    and nothing else.  When the process was started and its captured output
    decodes, it returns a text and does not raise: the captured standard
    output when the exit code is 0, and otherwise the error message, which
    embeds the captured standard error.  When the shell cannot be started
    or the output does not decode, the [OSError] or [UnicodeDecodeError] of
    [subprocess.run] passes through [run_command].  So each audit returns or
    ends with one of these two, never with [CalledProcessError]; and [main]
    returns, or ends with one of these two, or with the [SystemExit] of its
    directory check. *)
Theorem run_command_catches_called_process_error_only
    (command project_path : string) (os : OS) :
  res (Raw.run_command os_spawn decode command os) =
    match fst (os_spawn command os) with
    | NotStarted => Raise OSError
    | Exited code out err =>
        match decode out, decode err with
        | Some out_text, Some err_text =>
            Return (if (code =? 0)%Z then out_text
                    else "Error running command '"
                         ++ PyStr.join " " (PyStr.iter command)
                         ++ "': " ++ err_text)
        | _, _ => Raise UnicodeDecodeError
        end
    end
  /\ (forall err_text,
        PyStr.contains err_text (error_message command err_text))
  /\ returns_or_escapes
       (res (Raw.check_dependencies os_stat os_spawn decode sys_executable
               project_path os))
  /\ returns_or_escapes
       (res (Raw.check_code_quality os_stat os_spawn decode sys_executable
               project_path os))
  /\ (returns_or_escapes
        (res (Raw.main os_stat os_spawn decode sys_executable
                project_path os))
      \/ (res (Raw.main os_stat os_spawn decode sys_executable
                 project_path os) = Raise (SystemExit 1)
          /\ path_isdir os_stat os project_path = false)).
Proof.
  split; [| split; [| split; [| split]]].
  - rewrite raw_run_command_outcome. reflexivity.
  - intros err_text. unfold error_message. rewrite <- !append_assoc.
    apply contains_suffix.
  - apply raw_check_dependencies_ends.
  - apply raw_check_code_quality_ends.
  - rewrite raw_main_outcome.
    destruct (path_isdir os_stat os project_path); [left | right; auto].
    cbv zeta.
    pose proof (raw_check_dependencies_ends project_path os) as Hdeps.
    destruct (res (Raw.check_dependencies _ _ _ _ _ _)) as [[] | e].
    + pose proof (raw_check_code_quality_ends project_path
                    (os_after (Raw.check_dependencies os_stat os_spawn decode
                                 sys_executable project_path os)))
        as Hquality.
      destruct (res (Raw.check_code_quality _ _ _ _ _ _)) as [[] | e].
      * left. reflexivity.
      * exact Hquality.
    + exact Hdeps.
Qed.

(** C4, as the code has it.  For a path that is a directory: when each of
    the command lines the script builds for it can be started and has
    output that decodes, [main] runs to its last statement (the completion
    banner is the last thing printed) and returns normally, so the exit
    status is 0, whatever exit codes and texts the commands give.  In every
    case the exit status is 0 or 1, and it is 1 only through an [OSError]
    or [UnicodeDecodeError] that [run_command] let through. *)
Theorem main_directory_exit_status (project_path : string) (os : OS) :
  path_isdir os_stat os project_path = true ->
  ((forall c, In c (Raw.command_lines sys_executable project_path) ->
              forall s, Raw.readable decode (fst (os_spawn c s)) = true) ->
   res (Raw.main os_stat os_spawn decode sys_executable project_path os)
     = Return tt
   /\ exit_status
        (res (Raw.main os_stat os_spawn decode sys_executable
                project_path os)) = 0%Z
   /\ exists log,
        events (Raw.main os_stat os_spawn decode sys_executable
                  project_path os)
        = (Print (start_banner project_path)
             :: log ++ [Print complete_banner])%list)
  /\ (exit_status
        (res (Raw.main os_stat os_spawn decode sys_executable
                project_path os)) = 0%Z
      \/ (exit_status
            (res (Raw.main os_stat os_spawn decode sys_executable
                    project_path os)) = 1%Z
          /\ (res (Raw.main os_stat os_spawn decode sys_executable
                     project_path os) = Raise OSError
              \/ res (Raw.main os_stat os_spawn decode sys_executable
                        project_path os) = Raise UnicodeDecodeError))).
Proof.
  intros Hdir. split.
  - intros Hreadable. rewrite raw_main_outcome, Hdir. cbv zeta.
    rewrite raw_check_dependencies_readable by exact Hreadable.
    rewrite check_dependencies_returns.
    rewrite raw_check_code_quality_readable by exact Hreadable.
    rewrite check_code_quality_returns.
    split; [reflexivity | split; [reflexivity |]].
    eexists. cbn [events app]. rewrite <- app_assoc. reflexivity.
  - rewrite raw_main_outcome, Hdir. cbv zeta.
    pose proof (raw_check_dependencies_ends project_path os) as Hdeps.
    destruct (res (Raw.check_dependencies _ _ _ _ _ _)) as [[] | e].
    + pose proof (raw_check_code_quality_ends project_path
                    (os_after (Raw.check_dependencies os_stat os_spawn decode
                                 sys_executable project_path os)))
        as Hquality.
      destruct (res (Raw.check_code_quality _ _ _ _ _ _)) as [[] | e].
      * left. reflexivity.
      * right. destruct Hquality as [H | [H | H]]; [discriminate H | |];
          injection H as ->; cbn; auto.
    + right. destruct Hdeps as [H | [H | H]]; [discriminate H | |];
        injection H as ->; cbn; auto.
Qed.

End RawFacts.

(** The claim of C2 as the specification words it fails on a command that
    exits with 0 and writes the byte 0xff: the output does not decode,
    [run_command] raises instead of returning, and [main], on a directory,
    ends with that exception. *)
Lemma undecodable_output_escapes_run_command :
  Codec.decode [Byte.xff] = None
  /\ res (Raw.run_command (Codec.constant_shell Codec.binary_output)
            Codec.decode "flake8 proj/src" Demo.project_with_src)
     = Raise UnicodeDecodeError
  /\ path_isdir Demo.stat Demo.project_with_src "proj" = true
  /\ res (Raw.main Demo.stat (Codec.constant_shell Codec.binary_output)
            Codec.decode Demo.python "proj" Demo.project_with_src)
     = Raise UnicodeDecodeError.
Proof. repeat split. Qed.

(** The claim of C4 as the specification words it fails on the same shell:
    the path is a directory, the program stops at the first command with an
    uncaught exception, the exit status is 1 and the completion banner is
    not printed. *)
Lemma undecodable_output_changes_exit_status :
  path_isdir Demo.stat Demo.project_with_src "proj" = true
  /\ exit_status
       (res (Raw.main Demo.stat (Codec.constant_shell Codec.binary_output)
               Codec.decode Demo.python "proj" Demo.project_with_src))
     = 1%Z
  /\ events (Raw.main Demo.stat (Codec.constant_shell Codec.binary_output)
               Codec.decode Demo.python "proj" Demo.project_with_src)
     = [Print "--- Starting Audit for: proj ---";
        Print dependencies_banner;
        Run "python3 -m pip install pip-audit"].
Proof. repeat split. Qed.

(** [main] on a directory, with every command failing with 127 and a
    message in ASCII. *)
Lemma main_directory_exit_status_witness :
  path_isdir Demo.stat Demo.project_with_src "proj" = true
  /\ exit_status
       (res (Raw.main Demo.stat (Codec.constant_shell Codec.missing_tool)
               Codec.decode Demo.python "proj" Demo.project_with_src))
     = 0%Z.
Proof.
  split; [reflexivity |].
  refine (proj1 (proj2 (proj1
            (main_directory_exit_status Demo.OS Demo.stat
               (Codec.constant_shell Codec.missing_tool) Codec.decode
               Demo.python "proj" Demo.project_with_src eq_refl) _))).
  intros c Hc s. reflexivity.
Defined.
